(** * The React counter of [src/index.js]

    A shallow embedding of the two components of [src/index.js] ([App] and
    [DumbComponent]), of the two mount statements at the end of the script,
    and of the part of the React contract they run against: the [useState]
    cell, the update queue behind [setCount], the click dispatch and the
    re-render that follows it, [document.querySelector] and
    [ReactDOM.render]. *)

From Stdlib Require Import ZArith Lia Ascii Floats.
From stdpp Require Import base option list strings gmap fin_maps.

Local Open Scope Z_scope.
Set Warnings "-register-all".

(** ** JavaScript numbers

    [count] is a JavaScript number, an IEEE-754 binary64 value.  It starts
    at the literal [0] and is only ever replaced by [count + 1], [count * 5]
    or [0], so the values it can hold are integers and, once the
    multiplication overflows, [Infinity].  A number is therefore modelled by
    the integer it denotes, by a signed infinity or by [NaN], and an
    arithmetic operation rounds its exact result to the nearest binary64
    value, ties to the even significand, as the language prescribes.  The
    sign of a zero is not tracked: no count is negative. *)
Module Number.

Inductive number : Set :=
| Num (z : Z)
| Infinity
| NegInfinity
| NaN.

#[global] Instance number_eq_dec : EqDecision number.
Proof. solve_decision. Defined.

(** A binary64 significand holds 53 bits. *)
Definition precision : Z := 53.

(** [2 ^ 1024] is the first magnitude that no longer fits: everything that
    rounds up to it becomes an infinity. *)
Definition overflow_threshold : Z := 2 ^ 1024.

(** Nearest integer multiple of [2 ^ e] to a magnitude [m >= 0], as a
    multiple count: the bits of [m] from position [e] up, plus one when the
    [e] bits below are more than half of [2 ^ e]; a tie goes to the even
    count. *)
Definition round_shift (m e : Z) : Z :=
  let q := Z.shiftr m e in
  let r := Z.land m (Z.ones e) in
  let half := Z.shiftl 1 (e - 1) in
  if r <? half then q
  else if half <? r then q + 1
  else if Z.even q then q else q + 1.

(** Rounding of a magnitude to 53 significant bits. *)
Definition round_magnitude (m : Z) : Z :=
  if m <? 2 ^ precision then m
  else
    let e := Z.log2 m - (precision - 1) in
    Z.shiftl (round_shift m e) e.

(** The binary64 value nearest to the integer [z]. *)
Definition round_to_double (z : Z) : number :=
  let m := round_magnitude (Z.abs z) in
  if overflow_threshold <=? m
  then (if z <? 0 then NegInfinity else Infinity)
  else Num (Z.sgn z * m).

(** [a + b]. *)
Definition add (a b : number) : number :=
  match a, b with
  | NaN, _ | _, NaN => NaN
  | Num x, Num y => round_to_double (x + y)
  | Infinity, NegInfinity | NegInfinity, Infinity => NaN
  | Infinity, _ | _, Infinity => Infinity
  | NegInfinity, _ | _, NegInfinity => NegInfinity
  end.

(** [a * b]. *)
Definition mul (a b : number) : number :=
  match a, b with
  | NaN, _ | _, NaN => NaN
  | Num x, Num y => round_to_double (x * y)
  | Num x, Infinity | Infinity, Num x =>
      if x =? 0 then NaN else if x <? 0 then NegInfinity else Infinity
  | Num x, NegInfinity | NegInfinity, Num x =>
      if x =? 0 then NaN else if x <? 0 then Infinity else NegInfinity
  | Infinity, Infinity | NegInfinity, NegInfinity => Infinity
  | Infinity, NegInfinity | NegInfinity, Infinity => NegInfinity
  end.

(** The integers every one of which is a binary64 value of its own:
    magnitudes up to [2 ^ 53]. *)
Definition exact (z : Z) : Prop := Z.abs z <= 2 ^ precision.

(** The counts: the natural numbers and [Infinity]. *)
Definition is_count (v : number) : Prop :=
  match v with
  | Num z => 0 <= z
  | Infinity => True
  | _ => False
  end.

End Number.
Export Number.

(** ** Effects: a state that is threaded, and exceptions

    A piece of JavaScript runs against some mutable state [S] (the update
    queue of a hook while a handler runs, the hook cell while a component
    renders, the host document while the script runs) and either completes
    with a value or throws; the state reached is kept in both cases. *)
Inductive completion (A : Type) : Type :=
| Normal (a : A)
| Throw (message : string).
Arguments Normal {A} a.
Arguments Throw {A} message.

Definition js (S A : Type) : Type := S → completion A * S.

#[global] Instance js_ret {S} : MRet (js S) :=
  λ A (a : A) s, (Normal a, s).

#[global] Instance js_bind {S} : MBind (js S) :=
  λ A B (k : A → js S B) (m : js S A) s,
    match m s with
    | (Normal a, s') => k a s'
    | (Throw msg, s') => (Throw msg, s')
    end.

#[global] Instance js_throw {S} : MThrow string (js S) :=
  λ A (msg : string) s, (Throw msg, s).

(** State reached by a computation, and how it completed. *)
Definition exec {S A} (m : js S A) (s : S) : S := snd (m s).
Definition outcome {S A} (m : js S A) (s : S) : completion A := fst (m s).

(** ** The React contract the components run against *)

(** An argument of the setter of a state cell: a new value, or a function
    from the value of the cell to the new one. *)
Inductive action : Type :=
| Value (n : number)
| Updater (f : number → number).

(** How React folds one queued update into the state of the cell. *)
Definition basicStateReducer (state : number) (a : action) : number :=
  match a with
  | Value n => n
  | Updater f => f state
  end.

(** The event object React hands to a handler. *)
Record SyntheticEvent : Set := {
  event_type : string;
  event_target : string;
  defaultPrevented : bool
}.

(** A handler runs against the queue of updates requested so far. *)
Definition handler : Type := SyntheticEvent → js (list action) unit.

(** The setter of the cell does not change the cell: it appends its
    argument to the queue, which React works off once the handler is done. *)
Definition dispatchAction (a : action) : js (list action) unit :=
  λ queue, (Normal (), queue ++ [a]).

(** What a component returns: text, a number in braces, or a host element
    with its [className], its [onClick] and its children. *)
Inductive element : Type :=
| Text (s : string)
| NumberChild (n : number)
| Elem (tag : string) (className : option string) (onClick : option handler)
       (children : list element).

(** The one state cell of a mounted component: empty until its first
    render. *)
Definition hooks : Type := option number.

(** [React.useState(initial)]: the first render stores [initial]; every
    later render returns what the cell holds and ignores its argument.  The
    setter is the same function in every render. *)
Definition useState (initial : number)
  : js hooks (number * (action → js (list action) unit)) :=
  λ cell,
    match cell with
    | None => (Normal (initial, dispatchAction), Some initial)
    | Some current => (Normal (current, dispatchAction), Some current)
    end.

(** ** The components of [src/index.js] *)

(** [function App()], lines 45 to 203. *)
Definition App : js hooks element :=
  '(count, setCount) ← useState (Num 0);
  let handleReset : handler := λ e, setCount (Value (Num 0)) in
  mret
    (Elem "div" (Some "counter") None
       [ Elem "h3" None None [Text "React Counter"];
         Elem "p" (Some "click_desc") None
           [ Text "Your click count is ";
             Elem "span" None None [NumberChild count] ];
         Elem "div" (Some "button_container") None
           [ Elem "button" None
               (Some (λ _, setCount (Value (add count (Num 1)))))
               [Text "Add 1"];
             Elem "button" None
               (Some (λ _, setCount (Value (mul count (Num 5)))))
               [Text "Multiply by 5"];
             Elem "button" None (Some handleReset) [Text "Reset"] ] ]).

(** [function DumbComponent()], lines 227 to 229. *)
Definition DumbComponent : js hooks element :=
  mret (Text "hey there").

(** The two JSX elements the script renders, [<App />] and
    [<DumbComponent />], and the function behind each. *)
Inductive jsx : Set :=
| JsxApp
| JsxDumbComponent.

#[global] Instance jsx_eq_dec : EqDecision jsx.
Proof. solve_decision. Defined.

Definition component_of (t : jsx) : js hooks element :=
  match t with
  | JsxApp => App
  | JsxDumbComponent => DumbComponent
  end.

(** ** Mounted components *)

(** What React keeps for a component rendered into a container: which
    component it is, its state cell, and the output of its last render. *)
Record root : Type := {
  root_type : jsx;
  memoizedState : hooks;
  output : element
}.

(** One render pass: the component function is called on the cell, and the
    cell and the output are replaced by what it leaves and returns. *)
Definition render_pass (t : jsx) (cell : hooks) : completion root :=
  match component_of t cell with
  | (Normal e, cell') =>
      Normal {| root_type := t; memoizedState := cell'; output := e |}
  | (Throw msg, _) => Throw msg
  end.

(** The first button, in document order, whose only child is the text
    [label]: its [onClick], if it has one. *)
Fixpoint find_button (label : string) (e : element) : option handler :=
  match e with
  | Elem tag _ onClick children =>
      match children with
      | [Text s] =>
          if (String.eqb tag "button" && String.eqb s label)%bool
          then onClick else None
      | _ =>
          (fix first (l : list element) : option handler :=
             match l with
             | [] => None
             | child :: rest =>
                 match find_button label child with
                 | Some h => Some h
                 | None => first rest
                 end
             end) children
      end
  | _ => None
  end.

(** The first element, in document order, with the given [className]. *)
Fixpoint find_by_class (cls : string) (e : element) : option element :=
  match e with
  | Elem _ className _ children =>
      match className with
      | Some c =>
          if String.eqb c cls then Some e
          else
            (fix first (l : list element) : option element :=
               match l with
               | [] => None
               | child :: rest =>
                   match find_by_class cls child with
                   | Some found => Some found
                   | None => first rest
                   end
               end) children
      | None =>
          (fix first (l : list element) : option element :=
             match l with
             | [] => None
             | child :: rest =>
                 match find_by_class cls child with
                 | Some found => Some found
                 | None => first rest
                 end
             end) children
      end
  | _ => None
  end.

(** Number of [onClick] handlers in an output: its interactive elements. *)
Fixpoint interactive (e : element) : nat :=
  match e with
  | Elem _ _ onClick children =>
      (match onClick with Some _ => 1 | None => 0 end +
       (fix total (l : list element) : nat :=
          match l with
          | [] => 0
          | child :: rest => interactive child + total rest
          end) children)%nat
  | _ => 0%nat
  end.

(** Children of the paragraph [p.click_desc] of an output. *)
Definition click_desc (e : element) : option (list element) :=
  match find_by_class "click_desc" e with
  | Some (Elem _ _ _ children) => Some children
  | _ => None
  end.

(** The count an output displays: the number inside the [span] of the
    paragraph. *)
Definition displayed (e : element) : option number :=
  match click_desc e with
  | Some [Text _; Elem _ _ _ [NumberChild n]] => Some n
  | _ => None
  end.

(** The updates a click on the button [label] requests: the queue its
    handler leaves, started empty. *)
Definition requested (ev : SyntheticEvent) (label : string) (r : root)
  : list action :=
  match find_button label (output r) with
  | Some h => exec (h ev) []
  | None => []
  end.

(** Working off a queue: the updates are folded into the cell in the order
    they were requested.  When the cell ends up holding what it held, React
    bails out and the last output stays; otherwise the component renders
    again. *)
Definition process_queue (queue : list action) (r : root) : root :=
  match memoizedState r with
  | None => r
  | Some current =>
      let next := foldl basicStateReducer current queue in
      if decide (next = current) then r
      else
        match render_pass (root_type r) (Some next) with
        | Normal r' => r'
        | Throw _ => r
        end
  end.

(** A click on the button [label]: the handler runs to completion, then the
    queue it filled is worked off. *)
Definition click (ev : SyntheticEvent) (label : string) (r : root) : root :=
  process_queue (requested ev label r) r.

(** The counters a user can get to: the one the first render leaves, and
    whatever a click makes of one of them. *)
Inductive reachable : root → Prop :=
| reachable_mount r :
    render_pass JsxApp None = Normal r → reachable r
| reachable_click r ev label :
    reachable r → reachable (click ev label r).

(** A session: the clicks are dispatched one after the other, a render pass
    completing after each; the counts displayed along the way are
    collected. *)
Fixpoint session (ev : SyntheticEvent) (labels : list string) (r : root)
  : list (option number) :=
  displayed (output r) ::
  match labels with
  | [] => []
  | label :: rest => session ev rest (click ev label r)
  end.

(** ** The host document and the mount statements *)

(** The containers of the host page, by [id], each with what React has
    rendered into it so far. *)
Abbreviation document := (gmap string (option root)).

(** [document.querySelector(selector)], for the selectors the script uses:
    [#id] finds the element with that [id], or nothing ([null]).  Only
    selectors of this form, with a plain identifier after the [#], are
    modelled; type, class and compound selectors and malformed ones are
    not. *)
Definition querySelector (selector : string) : js document (option string) :=
  λ d,
    match selector with
    | String "#"%char id =>
        match d !! id with
        | Some _ => (Normal (Some id), d)
        | None => (Normal None, d)
        end
    | _ => (Normal None, d)
    end.

(** [ReactDOM.render(element, container)].  react-dom checks the container
    first and throws when it is not a DOM element, which [null] is not.
    Into a container that already holds the same component it renders
    again, on the cell that is there; otherwise it mounts afresh, replacing
    what the container held. *)
Definition ReactDOM_render (t : jsx) (container : option string)
  : js document unit :=
  λ d,
    match container with
    | None => (Throw "Target container is not a DOM element.", d)
    | Some id =>
        let cell :=
          match d !! id with
          | Some (Some r) =>
              if decide (root_type r = t) then memoizedState r else None
          | _ => None
          end in
        match render_pass t cell with
        | Normal r => (Normal (), <[id := Some r]> d)
        | Throw msg => (Throw msg, d)
        end
    end.

(** The statements of [src/index.js] outside the two functions, lines 214,
    215, 230 and 231. *)
Definition index_js : js document unit :=
  rootElement ← querySelector "#root";
  ReactDOM_render JsxApp rootElement;;
  pElement ← querySelector "#dumbParagraph";
  ReactDOM_render JsxDumbComponent pElement.

(** A click on a button of the component mounted in the container [id]. *)
Definition click_in (id : string) (ev : SyntheticEvent) (label : string)
  (d : document) : document :=
  match d !! id with
  | Some (Some r) => <[id := Some (click ev label r)]> d
  | _ => d
  end.

(** What the container [id] shows. *)
Definition content (id : string) (d : document) : option element :=
  match d !! id with
  | Some (Some r) => Some (output r)
  | _ => None
  end.

(** Modelled from the spec: the host page [index.html], which is not among
    the sources.  It holds two containers with distinct identifiers, one
    for the counter and one for the static text; the identifiers are the
    ones the script queries, [root] and [dumbParagraph], and both
    containers are empty before the script runs. *)
Definition index_html : document :=
  {[ "root" := None; "dumbParagraph" := None ]}.

(** A click event on a button. *)
Definition a_click : SyntheticEvent :=
  {| event_type := "click"; event_target := "button";
     defaultPrevented := false |}.

(** [rendered v r]: [r] is the counter as a render pass leaves it when the
    cell holds [v]. *)
Definition rendered (v : number) (r : root) : Prop :=
  render_pass JsxApp (Some v) = Normal r.

(** The counter as its first render leaves it. *)
Definition mounted_counter : root :=
  match render_pass JsxApp None with
  | Normal r => r
  | Throw _ =>
      {| root_type := JsxApp; memoizedState := None; output := Text "" |}
  end.

(** The counter after clicks on the buttons [labels], in that order. *)
Definition after (labels : list string) (r : root) : root :=
  foldl (λ r label, click a_click label r) r labels.

(** A handler whose body runs the body of [h] two times. *)
Definition twice (h : handler) : handler :=
  λ ev, h ev;; h ev.

(** One mount statement pair of the script: look the container up, render
    into what was found. *)
Definition mount_step (t : jsx) (selector : string) : js document unit :=
  container ← querySelector selector;
  ReactDOM_render t container.

(** A mount against a missing container that does nothing at all. *)
Definition missing_container_is_noop : Prop :=
  ∀ (t : jsx) (selector : string) (d : document),
    outcome (querySelector selector) d = Normal None →
    mount_step t selector d = (Normal (), d).

(** No click requests the value the counter holds, but [Reset] at zero. *)
Definition only_reset_at_zero_repeats : Prop :=
  ∀ (r : root) (ev : SyntheticEvent) (label : string) (v n : number),
    reachable r → displayed (output r) = Some v →
    requested ev label r = [Value n] →
    (n = v ↔ label = "Reset" ∧ v = Num 0).

(** ** Binary64 itself

    Rocq's primitive floats are binary64 values with the arithmetic of the
    processor; they serve to test the rounding written out in [Number]. *)

(** The number a float is, when it is an integer, an infinity or [NaN]. *)
Definition of_float (f : float) : option number :=
  match Prim2SF f with
  | S754_zero _ => Some (Num 0)
  | S754_infinity s => Some (if s then NegInfinity else Infinity)
  | S754_nan => Some NaN
  | S754_finite s m e =>
      let sign := if s then -1 else 1 in
      if 0 <=? e then Some (Num (sign * (Z.pos m * 2 ^ e)))
      else if Z.pos m mod 2 ^ (- e) =? 0
           then Some (Num (sign * (Z.pos m / 2 ^ (- e))))
           else None
  end.

(** The three updates of the counter, on floats. *)
Fixpoint float_run (labels : list string) (count : float) : float :=
  match labels with
  | [] => count
  | label :: rest =>
      float_run rest
        (if String.eqb label "Add 1" then PrimFloat.add count 1
         else if String.eqb label "Multiply by 5" then PrimFloat.mul count 5
         else if String.eqb label "Reset" then 0
         else count)
  end.

(** Whether the counter displays, after every prefix of the clicks
    [labels], the number that the float computation gives. *)
Fixpoint agrees (labels : list string) (r : root) (count : float) : bool :=
  bool_decide (displayed (output r) = of_float count) &&
  match labels with
  | [] => true
  | label :: rest =>
      agrees rest (click a_click label r) (float_run [label] count)
  end.

(** ** Further notions *)

(** The order of the counts: the integers in their order, below
    [Infinity]. *)
Definition le_count (v w : number) : Prop :=
  match v, w with
  | Num a, Num b => a <= b
  | Num _, Infinity => True
  | Infinity, Infinity => True
  | _, _ => False
  end.

(** The integers that are binary64 values: those that rounding leaves. *)
Definition representable (v : number) : Prop :=
  match v with
  | Num z => round_magnitude z = z ∧ z < overflow_threshold
  | _ => True
  end.

(** What a click on [label] makes of the count in exact integer
    arithmetic. *)
Definition ideal_step (label : string) (z : Z) : Z :=
  if String.eqb "Add 1" label then z + 1
  else if String.eqb "Multiply by 5" label then z * 5
  else if String.eqb "Reset" label then 0
  else z.

Definition ideal (labels : list string) (z : Z) : Z :=
  foldl (λ z label, ideal_step label z) z labels.

(** Every count along the clicks [labels], computed exactly from [z], is
    of magnitude [2 ^ 53] at most. *)
Fixpoint within (labels : list string) (z : Z) : Prop :=
  match labels with
  | [] => True
  | label :: rest => exact (ideal_step label z) ∧ within rest (ideal_step label z)
  end.

(** The static text as its render leaves it. *)
Definition mounted_text : root :=
  {| root_type := JsxDumbComponent; memoizedState := None;
     output := Text "hey there" |}.

(** The count a click on [label] leads to, from the count [v]. *)
Definition next_count (label : string) (v : number) : number :=
  if String.eqb "Add 1" label then add v (Num 1)
  else if String.eqb "Multiply by 5" label then mul v (Num 5)
  else if String.eqb "Reset" label then Num 0
  else v.

Definition counts_after (labels : list string) (v : number) : number :=
  foldl (λ v label, next_count label v) v labels.

(** * Properties *)

(** ** Rounding *)

(** Case analysis on every condition of the goal. *)
Ltac case_conditions :=
  repeat match goal with
         | |- context [if ?b then _ else _] => destruct b
         end.

Lemma round_magnitude_small (m : Z) :
  m < 2 ^ precision → round_magnitude m = m.
Proof.
  intros Hm. unfold round_magnitude.
  destruct (Z.ltb_spec m (2 ^ precision)); [reflexivity | lia].
Qed.

Lemma round_magnitude_limit : round_magnitude (2 ^ precision) = 2 ^ precision.
Proof. reflexivity. Qed.

Lemma round_shift_lower (m e : Z) : 0 ≤ e → m / 2 ^ e ≤ round_shift m e.
Proof.
  intros He. unfold round_shift. rewrite Z.shiftr_div_pow2 by exact He.
  case_conditions; lia.
Qed.

(** From [2 ^ 53] on, rounding loses less than one part in [2 ^ 52]. *)
Lemma round_magnitude_lower (m : Z) :
  2 ^ precision ≤ m → 2 ^ 52 * (m - round_magnitude m) < m.
Proof.
  intros Hm. unfold round_magnitude.
  destruct (Z.ltb_spec m (2 ^ precision)) as [Hlt | _]; [lia |].
  assert (Hpos : 0 < m) by (unfold precision in Hm; lia).
  assert (Hlog : precision ≤ Z.log2 m)
    by (apply Z.log2_le_pow2; [lia | exact Hm]).
  set (e := Z.log2 m - (precision - 1)).
  assert (He : 0 < e) by (unfold e, precision in *; lia).
  assert (Hpow : 2 ^ 52 * 2 ^ e ≤ m).
  { rewrite <- Z.pow_add_r by lia.
    replace (52 + e) with (Z.log2 m) by (unfold e, precision; lia).
    apply Z.log2_spec; lia. }
  pose proof (round_shift_lower m e ltac:(lia)) as Hq.
  assert (Hp : 0 < 2 ^ e) by (apply Z.pow_pos_nonneg; lia).
  pose proof (Z.div_mod m (2 ^ e) ltac:(lia)) as Hdm.
  pose proof (Z.mod_pos_bound m (2 ^ e) Hp) as Hr.
  assert (Hmul : m / 2 ^ e * 2 ^ e ≤ round_shift m e * 2 ^ e)
    by (apply Z.mul_le_mono_nonneg_r; lia).
  rewrite Z.shiftl_mul_pow2 by lia.
  change (2 ^ 52) with 4503599627370496 in *.
  lia.
Qed.

Lemma round_to_double_exact (z : Z) : exact z → round_to_double z = Num z.
Proof.
  unfold exact, round_to_double. intros Hz.
  assert (Hm : round_magnitude (Z.abs z) = Z.abs z).
  { destruct (Z.eq_dec (Z.abs z) (2 ^ precision)) as [-> | Hne].
    - apply round_magnitude_limit.
    - apply round_magnitude_small. lia. }
  rewrite Hm.
  destruct (Z.leb_spec overflow_threshold (Z.abs z)) as [Hover | _].
  - exfalso. revert Hover Hz. unfold overflow_threshold, precision.
    generalize (Z.abs z). intros a Ha Hb.
    assert (2 ^ 53 < 2 ^ 1024) by (apply Z.pow_lt_mono_r; lia). lia.
  - f_equal. lia.
Qed.

Lemma add_exact (x y : Z) : exact (x + y) → add (Num x) (Num y) = Num (x + y).
Proof. apply round_to_double_exact. Qed.

Lemma mul_exact (x y : Z) : exact (x * y) → mul (Num x) (Num y) = Num (x * y).
Proof. apply round_to_double_exact. Qed.

Lemma round_magnitude_nonneg (m : Z) : 0 ≤ m → 0 ≤ round_magnitude m.
Proof.
  intros Hm.
  destruct (Z_lt_le_dec m (2 ^ precision)) as [Hlt | Hge].
  - rewrite round_magnitude_small by exact Hlt. exact Hm.
  - pose proof (round_magnitude_lower m Hge) as Hlow.
    change (2 ^ 52) with 4503599627370496 in Hlow. lia.
Qed.

(** Rounding a natural number gives a count. *)
Lemma round_to_double_count (z : Z) : 0 ≤ z → is_count (round_to_double z).
Proof.
  intros Hz. unfold round_to_double.
  pose proof (round_magnitude_nonneg (Z.abs z) (Z.abs_nonneg z)) as Hm.
  destruct (_ <=? _).
  - destruct (Z.ltb_spec z 0); [lia | exact I].
  - cbn. apply Z.mul_nonneg_nonneg; lia.
Qed.

Lemma add_one_count (v : number) : is_count v → is_count (add v (Num 1)).
Proof.
  destruct v as [z | | |]; cbn [is_count add]; try tauto.
  intros Hz. apply round_to_double_count. lia.
Qed.

Lemma mul_five_count (v : number) : is_count v → is_count (mul v (Num 5)).
Proof.
  destruct v as [z | | |]; cbn [is_count mul]; try tauto.
  intros Hz. apply round_to_double_count. lia.
Qed.

(** Five times a non-zero integer is never rounded back to that integer. *)
Lemma mul_five_moves (z : Z) : z ≠ 0 → mul (Num z) (Num 5) ≠ Num z.
Proof.
  intros Hz. cbn [mul].
  destruct (Z_le_gt_dec (Z.abs (z * 5)) (2 ^ precision)) as [Hin | Hout].
  - rewrite round_to_double_exact by exact Hin.
    intros [= Heq]. lia.
  - unfold round_to_double.
    pose proof (round_magnitude_lower (Z.abs (z * 5)) ltac:(lia)) as Hlow.
    destruct (_ <=? round_magnitude _).
    + destruct (_ <? 0); discriminate.
    + intros [= Heq].
      assert (Habs : round_magnitude (Z.abs (z * 5)) = Z.abs z) by nia.
      rewrite Habs in Hlow.
      change (2 ^ 52) with 4503599627370496 in Hlow. lia.
Qed.

Create HintDb counts.
#[local] Hint Resolve add_one_count mul_five_count : counts.

(** ** The render cycle of the counter *)

Lemma first_render (r : root) :
  render_pass JsxApp None = Normal r ↔ rendered (Num 0) r.
Proof. reflexivity. Qed.

Lemma rendered_total (v : number) : ∃ r, rendered v r.
Proof. eexists. reflexivity. Qed.

Section Rendered.

(** A counter [r] rendered on a cell that holds [v]. *)
Variables (v : number) (r : root).
Hypothesis Hr : rendered v r.

Lemma rendered_cell : memoizedState r = Some v.
Proof. injection Hr as <-. reflexivity. Qed.

Lemma rendered_displayed : displayed (output r) = Some v.
Proof. injection Hr as <-. reflexivity. Qed.

(** The buttons of the render and the closures behind them. *)
Lemma rendered_buttons (label : string) :
  find_button label (output r) =
    if String.eqb "Add 1" label
    then Some (λ _, dispatchAction (Value (add v (Num 1))))
    else if String.eqb "Multiply by 5" label
    then Some (λ _, dispatchAction (Value (mul v (Num 5))))
    else if String.eqb "Reset" label
    then Some (λ _, dispatchAction (Value (Num 0)))
    else None.
Proof.
  injection Hr as <-. cbn -[String.eqb].
  repeat match goal with
         | |- context [String.eqb ?tag "button"] =>
             let b := eval vm_compute in (String.eqb tag "button") in
             change (String.eqb tag "button") with b
         end.
  cbn -[String.eqb]. case_conditions; reflexivity.
Qed.

Lemma requested_add (ev : SyntheticEvent) :
  requested ev "Add 1" r = [Value (add v (Num 1))].
Proof. injection Hr as <-. reflexivity. Qed.

Lemma requested_mul (ev : SyntheticEvent) :
  requested ev "Multiply by 5" r = [Value (mul v (Num 5))].
Proof. injection Hr as <-. reflexivity. Qed.

Lemma requested_reset (ev : SyntheticEvent) :
  requested ev "Reset" r = [Value (Num 0)].
Proof. injection Hr as <-. reflexivity. Qed.

(** Requests of a click, whatever the label: none, or one of the three
    values. *)
Lemma requested_cases (ev : SyntheticEvent) (label : string) :
  requested ev label r = [] ∨
  ∃ n, requested ev label r = [Value n] ∧
       (n = add v (Num 1) ∨ n = mul v (Num 5) ∨ n = Num 0).
Proof.
  unfold requested. rewrite rendered_buttons.
  case_conditions; try (left; reflexivity);
    right; eexists; (split; [reflexivity | auto]).
Qed.

(** Working off a queue leaves the counter rendered at the value the queue
    folds to; with or without the bail-out. *)
Lemma process_queue_rendered (queue : list action) :
  rendered (foldl basicStateReducer v queue) (process_queue queue r).
Proof.
  unfold process_queue. rewrite rendered_cell.
  destruct (decide (foldl basicStateReducer v queue = v)) as [-> | _].
  - exact Hr.
  - injection Hr as <-. reflexivity.
Qed.

Lemma click_rendered (n : number) (ev : SyntheticEvent) (label : string) :
  requested ev label r = [Value n] → rendered n (click ev label r).
Proof.
  intros Hq. unfold click. rewrite Hq.
  exact (process_queue_rendered [Value n]).
Qed.

Lemma click_nothing (ev : SyntheticEvent) (label : string) :
  requested ev label r = [] → click ev label r = r.
Proof.
  intros Hq. unfold click, process_queue.
  rewrite Hq, rendered_cell. cbn.
  destruct (decide (v = v)); [reflexivity | congruence].
Qed.

End Rendered.

Lemma rendered_unique (v : number) (r r' : root) :
  rendered v r → rendered v r' → r = r'.
Proof. unfold rendered. congruence. Qed.

(** The invariant of the render cycle: every counter a user can get to is
    the render of the value its cell holds, and that value is a count. *)
Lemma reachable_rendered (r : root) :
  reachable r → ∃ v, rendered v r ∧ is_count v.
Proof.
  induction 1 as [r Hmount | r ev label _ [v [Hr Hv]]].
  - exists (Num 0). split; [exact Hmount | cbn; lia].
  - destruct (requested_cases v r Hr ev label) as [Hq | [n [Hq Hn]]].
    + exists v. rewrite (click_nothing v r Hr ev label Hq). auto.
    + exists n. split; [exact (click_rendered v r Hr n ev label Hq) |].
      destruct Hn as [-> | [-> | ->]]; auto with counts. cbn; lia.
Qed.

Lemma reachable_displays (r : root) (v : number) :
  reachable r → displayed (output r) = Some v → rendered v r ∧ is_count v.
Proof.
  intros Hreach Hshow. destruct (reachable_rendered r Hreach) as [w [Hw Hc]].
  rewrite (rendered_displayed w r Hw) in Hshow.
  injection Hshow as <-. auto.
Qed.

Lemma mounted_counter_first : render_pass JsxApp None = Normal mounted_counter.
Proof. reflexivity. Qed.

Lemma mounted_counter_reachable : reachable mounted_counter.
Proof. apply reachable_mount, mounted_counter_first. Defined.

Lemma after_reachable (labels : list string) (r : root) :
  reachable r → reachable (after labels r).
Proof.
  revert r. induction labels as [| label rest IH]; intros r Hr.
  - exact Hr.
  - apply IH, reachable_click, Hr.
Defined.

(** ** The three controls *)

(** C3. For every counter a user can get to, displaying [v]: a click on
    "Add 1" requests exactly one update, the value [v + 1] of JavaScript's
    addition, and the render that follows displays it; when [v] is an
    integer [z] with [z + 1] of magnitude at most [2 ^ 53], that is the
    integer [z + 1]. *)
Theorem add_one_click (r : root) (ev : SyntheticEvent) (v : number) :
  reachable r → displayed (output r) = Some v →
  requested ev "Add 1" r = [Value (add v (Num 1))] ∧
  displayed (output (click ev "Add 1" r)) = Some (add v (Num 1)) ∧
  ∀ z, v = Num z → exact (z + 1) →
       displayed (output (click ev "Add 1" r)) = Some (Num (z + 1)).
Proof.
  intros Hreach Hshow.
  pose proof (reachable_displays r v Hreach Hshow) as [Hr Hcount].
  pose proof (requested_add v r Hr ev) as Hq.
  pose proof (click_rendered v r Hr _ ev "Add 1" Hq) as Hnext.
  apply rendered_displayed in Hnext.
  repeat split; [exact Hq | exact Hnext |].
  intros z -> Hz. rewrite Hnext, add_exact by exact Hz. reflexivity.
Qed.

Lemma add_one_click_witness :
  reachable (after ["Add 1"; "Add 1"] mounted_counter) ∧
  displayed (output (after ["Add 1"; "Add 1"] mounted_counter)) = Some (Num 2) ∧
  exact (2 + 1) ∧
  displayed (output (click a_click "Add 1"
                       (after ["Add 1"; "Add 1"] mounted_counter)))
    = Some (Num (2 + 1)).
Proof.
  assert (Hreach : reachable (after ["Add 1"; "Add 1"] mounted_counter))
    by apply after_reachable, mounted_counter_reachable.
  assert (Hexact : exact (2 + 1)) by (unfold exact, precision; lia).
  split; [exact Hreach |]. split; [reflexivity |]. split; [exact Hexact |].
  exact (proj2 (proj2 (add_one_click _ a_click (Num 2) Hreach eq_refl))
           2 eq_refl Hexact).
Defined.

(** C4. For every counter a user can get to, displaying [v]: a click on
    "Multiply by 5" requests exactly one update, the value [v * 5] of
    JavaScript's multiplication, and the render that follows displays it;
    when [v] is an integer [z] with [z * 5] of magnitude at most [2 ^ 53],
    that is the integer [z * 5]. *)
Theorem multiply_by_five_click (r : root) (ev : SyntheticEvent) (v : number) :
  reachable r → displayed (output r) = Some v →
  requested ev "Multiply by 5" r = [Value (mul v (Num 5))] ∧
  displayed (output (click ev "Multiply by 5" r)) = Some (mul v (Num 5)) ∧
  ∀ z, v = Num z → exact (z * 5) →
       displayed (output (click ev "Multiply by 5" r)) = Some (Num (z * 5)).
Proof.
  intros Hreach Hshow.
  pose proof (reachable_displays r v Hreach Hshow) as [Hr Hcount].
  pose proof (requested_mul v r Hr ev) as Hq.
  pose proof (click_rendered v r Hr _ ev "Multiply by 5" Hq) as Hnext.
  apply rendered_displayed in Hnext.
  repeat split; [exact Hq | exact Hnext |].
  intros z -> Hz. rewrite Hnext, mul_exact by exact Hz. reflexivity.
Qed.

Lemma multiply_by_five_click_witness :
  reachable (after ["Add 1"; "Add 1"; "Add 1"] mounted_counter) ∧
  displayed (output (after ["Add 1"; "Add 1"; "Add 1"] mounted_counter))
    = Some (Num 3) ∧
  exact (3 * 5) ∧
  displayed (output (click a_click "Multiply by 5"
                       (after ["Add 1"; "Add 1"; "Add 1"] mounted_counter)))
    = Some (Num (3 * 5)).
Proof.
  assert (Hreach : reachable (after ["Add 1"; "Add 1"; "Add 1"] mounted_counter))
    by apply after_reachable, mounted_counter_reachable.
  assert (Hexact : exact (3 * 5)) by (unfold exact, precision; lia).
  split; [exact Hreach |]. split; [reflexivity |]. split; [exact Hexact |].
  exact (proj2 (proj2 (multiply_by_five_click _ a_click (Num 3) Hreach eq_refl))
           3 eq_refl Hexact).
Defined.

(** C5. For every counter rendered on a cell that holds [v], whatever
    value [v] is, zero included, and so for every counter a user can get to
    (lemma [reachable_displays]): a click on "Reset" requests exactly the
    update to [0], the cell then holds [0] and the counter displays [0], and
    a second click on "Reset" leaves the counter as the first one left it. *)
Theorem reset_click (r : root) (ev : SyntheticEvent) (v : number) :
  rendered v r →
  requested ev "Reset" r = [Value (Num 0)] ∧
  memoizedState (click ev "Reset" r) = Some (Num 0) ∧
  displayed (output (click ev "Reset" r)) = Some (Num 0) ∧
  click ev "Reset" (click ev "Reset" r) = click ev "Reset" r.
Proof.
  intros Hr.
  pose proof (requested_reset v r Hr ev) as Hq.
  pose proof (click_rendered v r Hr _ ev "Reset" Hq) as Hnext.
  split; [exact Hq |].
  split; [exact (rendered_cell _ _ Hnext) |].
  split; [exact (rendered_displayed _ _ Hnext) |].
  pose proof (requested_reset _ _ Hnext ev) as Hq'.
  pose proof (click_rendered _ _ Hnext _ ev "Reset" Hq') as Hagain.
  exact (rendered_unique _ _ _ Hagain Hnext).
Qed.

Lemma reset_click_witness :
  let r := after ["Add 1"; "Add 1"; "Add 1"; "Multiply by 5"] mounted_counter in
  reachable r ∧ rendered (Num 15) r ∧
  displayed (output r) = Some (Num 15) ∧
  memoizedState (click a_click "Reset" r) = Some (Num 0) ∧
  displayed (output (click a_click "Reset" r)) = Some (Num 0).
Proof.
  intros r.
  assert (Hr : rendered (Num 15) r) by reflexivity.
  split; [apply after_reachable, mounted_counter_reachable |].
  split; [exact Hr |]. split; [reflexivity |].
  pose proof (reset_click r a_click (Num 15) Hr) as [_ [Hcell [Hshow _]]].
  split; [exact Hcell | exact Hshow].
Defined.

(** ** Mounting *)

(** C6. The first render of the counter creates the cell with [0] and
    displays [0]: the paragraph holds the text "Your click count is "
    followed by the [span] with the number [0]; so does the host page once
    the script has run.  Only the first render initialises: on a cell that
    holds [v], [useState(0)] returns [v] and leaves [v], and the render
    displays [v]. *)
Theorem first_mount :
  (∃ r, render_pass JsxApp None = Normal r ∧
        memoizedState r = Some (Num 0) ∧
        click_desc (output r) =
          Some [ Text "Your click count is ";
                 Elem "span" None None [NumberChild (Num 0)] ] ∧
        displayed (output r) = Some (Num 0) ∧
        content "root" (exec index_js index_html) = Some (output r)) ∧
  (∀ v, useState (Num 0) (Some v) = (Normal (v, dispatchAction), Some v)) ∧
  (∀ v, ∃ r, render_pass JsxApp (Some v) = Normal r ∧
             memoizedState r = Some v ∧ displayed (output r) = Some v).
Proof.
  split; [| split].
  - exists mounted_counter. repeat split; vm_compute; reflexivity.
  - reflexivity.
  - intros v. eexists. repeat split; reflexivity.
Qed.

(** C7. From a fresh mount, three clicks on "Add 1", one on "Multiply by
    5" and one on "Reset", each followed by its render pass, display 0,
    then 3, then 15, then 0; in full the counts displayed are 0, 1, 2, 3,
    15, 0.  The same holds in the host page after the script has run. *)
Theorem scenario_A (ev : SyntheticEvent) :
  let clicks := ["Add 1"; "Add 1"; "Add 1"; "Multiply by 5"; "Reset"] in
  render_pass JsxApp None = Normal mounted_counter ∧
  displayed (output mounted_counter) = Some (Num 0) ∧
  displayed (output (after (take 3 clicks) mounted_counter)) = Some (Num 3) ∧
  displayed (output (after (take 4 clicks) mounted_counter)) = Some (Num 15) ∧
  displayed (output (after clicks mounted_counter)) = Some (Num 0) ∧
  session ev clicks mounted_counter =
    [ Some (Num 0); Some (Num 1); Some (Num 2); Some (Num 3);
      Some (Num 15); Some (Num 0) ] ∧
  (displayed <$>
     content "root"
       (foldl (λ d label, click_in "root" ev label d)
              (exec index_js index_html) clicks)) = Some (Some (Num 0)).
Proof.
  repeat split; vm_compute; reflexivity.
Qed.

(** ** Closures over a render's snapshot *)

(** Two updates by function build on one another: from 3 they reach 5. *)
Example updaters_compound :
  foldl basicStateReducer (Num 3)
    [ Updater (λ c, add c (Num 1)); Updater (λ c, add c (Num 1)) ] = Num 5.
Proof. reflexivity. Qed.

(** C1. Take the "Add 1" closure [h] of the render of a reachable counter
    displaying [v].  A handler whose body runs it twice requests the same
    value [v + 1] twice, and the next render displays [v + 1]: a single
    increment.  From 3 the counter displays 4, not 5.  Whatever updates are
    pending when [h] runs, it requests the [v + 1] of the [v] its own render
    captured. *)
Theorem stale_closure (r : root) (ev : SyntheticEvent) (v : number)
  (h : handler) :
  reachable r → displayed (output r) = Some v →
  find_button "Add 1" (output r) = Some h →
  exec (twice h ev) [] = [Value (add v (Num 1)); Value (add v (Num 1))] ∧
  displayed (output (process_queue (exec (twice h ev) []) r))
    = Some (add v (Num 1)) ∧
  (v = Num 3 →
   displayed (output (process_queue (exec (twice h ev) []) r)) = Some (Num 4) ∧
   displayed (output (process_queue (exec (twice h ev) []) r)) ≠ Some (Num 5)) ∧
  (∀ pending, exec (h ev) pending = pending ++ [Value (add v (Num 1))]).
Proof.
  intros Hreach Hshow Hfind.
  pose proof (reachable_displays r v Hreach Hshow) as [Hr Hcount].
  rewrite (rendered_buttons v r Hr "Add 1") in Hfind.
  cbn in Hfind. injection Hfind as <-.
  assert (Hq : exec (twice (λ _, dispatchAction (Value (add v (Num 1)))) ev) []
               = [Value (add v (Num 1)); Value (add v (Num 1))])
    by reflexivity.
  pose proof (process_queue_rendered v r Hr
                [Value (add v (Num 1)); Value (add v (Num 1))]) as Hnext.
  apply rendered_displayed in Hnext. cbn [foldl basicStateReducer] in Hnext.
  rewrite Hq. repeat split.
  - exact Hnext.
  - subst v. rewrite Hnext. reflexivity.
  - subst v. rewrite Hnext. discriminate.
Qed.

Lemma stale_closure_witness :
  let r := after ["Add 1"; "Add 1"; "Add 1"] mounted_counter in
  let h : handler := λ _, dispatchAction (Value (add (Num 3) (Num 1))) in
  reachable r ∧ displayed (output r) = Some (Num 3) ∧
  find_button "Add 1" (output r) = Some h ∧
  displayed (output (process_queue (exec (twice h a_click) []) r))
    = Some (Num 4) ∧
  displayed (output (process_queue (exec (twice h a_click) []) r))
    ≠ Some (Num 5).
Proof.
  intros r h.
  assert (Hreach : reachable r)
    by apply after_reachable, mounted_counter_reachable.
  assert (Hshow : displayed (output r) = Some (Num 3)) by reflexivity.
  assert (Hfind : find_button "Add 1" (output r) = Some h) by reflexivity.
  split; [exact Hreach |]. split; [exact Hshow |]. split; [exact Hfind |].
  exact (proj1 (proj2 (proj2
           (stale_closure r a_click (Num 3) h Hreach Hshow Hfind))) eq_refl).
Defined.

(** C10. In every counter a user can get to, displaying [v], what a handler
    does is decided by [v] alone: run on two different event objects, from
    any pending queue, a button's handler completes the same way and leaves
    the same queue; the click requests, and the counter it leads to, are the
    same; and the request is [v + 1], [v * 5] or [0] according to the
    button. *)
Theorem handlers_ignore_event (r : root) (v : number)
  (ev1 ev2 : SyntheticEvent) (label : string) :
  reachable r → displayed (output r) = Some v →
  (∀ h pending, find_button label (output r) = Some h →
                h ev1 pending = h ev2 pending) ∧
  requested ev1 label r = requested ev2 label r ∧
  click ev1 label r = click ev2 label r ∧
  requested ev1 "Add 1" r = [Value (add v (Num 1))] ∧
  requested ev1 "Multiply by 5" r = [Value (mul v (Num 5))] ∧
  requested ev1 "Reset" r = [Value (Num 0)].
Proof.
  intros Hreach Hshow.
  pose proof (reachable_displays r v Hreach Hshow) as [Hr Hcount].
  assert (Hh : ∀ h pending, find_button label (output r) = Some h →
                            h ev1 pending = h ev2 pending).
  { intros h pending. rewrite (rendered_buttons v r Hr label).
    case_conditions; intros [= <-] || discriminate; reflexivity. }
  assert (Hq : requested ev1 label r = requested ev2 label r).
  { unfold requested, exec.
    destruct (find_button label (output r)) as [h |] eqn:Hfind;
      [| reflexivity].
    rewrite (Hh h [] eq_refl). reflexivity. }
  repeat split.
  - exact Hh.
  - exact Hq.
  - unfold click. rewrite Hq. reflexivity.
  - exact (requested_add v r Hr ev1).
  - exact (requested_mul v r Hr ev1).
  - exact (requested_reset v r Hr ev1).
Qed.

Lemma handlers_ignore_event_witness :
  let other := {| event_type := "keydown"; event_target := "window";
                  defaultPrevented := true |} in
  reachable mounted_counter ∧
  displayed (output mounted_counter) = Some (Num 0) ∧
  click a_click "Add 1" mounted_counter = click other "Add 1" mounted_counter.
Proof.
  intros other.
  split; [exact mounted_counter_reachable |]. split; [reflexivity |].
  apply (handlers_ignore_event mounted_counter (Num 0) a_click other "Add 1").
  - exact mounted_counter_reachable.
  - reflexivity.
Defined.

(** ** Requests that repeat the current value *)

(** C8, as stated, fails on the freshly mounted counter: it displays 0 and
    a click on "Multiply by 5" requests [0 * 5], which is 0 again. *)
Lemma multiply_at_zero_repeats :
  reachable mounted_counter ∧
  displayed (output mounted_counter) = Some (Num 0) ∧
  requested a_click "Multiply by 5" mounted_counter = [Value (Num 0)] ∧
  ¬ only_reset_at_zero_repeats.
Proof.
  split; [exact mounted_counter_reachable |].
  split; [reflexivity |]. split; [reflexivity |].
  intros Hclaim.
  destruct (Hclaim mounted_counter a_click "Multiply by 5" (Num 0) (Num 0)
              mounted_counter_reachable eq_refl eq_refl) as [Hsame _].
  destruct (Hsame eq_refl) as [Hlabel _]. discriminate Hlabel.
Qed.

(** C8, amended. For every counter a user can get to, displaying [v]:
    "Reset" requests the value displayed exactly when [v] is 0; "Multiply
    by 5" requests the value displayed exactly when [v] is 0 or [Infinity];
    "Add 1" requests another value than the one displayed whenever [v] is an
    integer below [2 ^ 53]. *)
Theorem repeated_requests (r : root) (ev : SyntheticEvent) (v : number) :
  reachable r → displayed (output r) = Some v →
  (requested ev "Reset" r = [Value v] ↔ v = Num 0) ∧
  (requested ev "Multiply by 5" r = [Value v] ↔ v = Num 0 ∨ v = Infinity) ∧
  (∀ z, v = Num z → z < 2 ^ precision →
        requested ev "Add 1" r ≠ [Value v]).
Proof.
  intros Hreach Hshow.
  pose proof (reachable_displays r v Hreach Hshow) as [Hr Hcount].
  rewrite (requested_reset v r Hr ev), (requested_mul v r Hr ev),
    (requested_add v r Hr ev).
  split; [| split].
  - split; [intros [= <-]; reflexivity | intros ->; reflexivity].
  - split.
    + intros Hsame. assert (Hfix : mul v (Num 5) = v) by congruence.
      destruct v as [z | | |]; [| auto | destruct Hcount ..].
      left. destruct (Z.eq_dec z 0) as [-> | Hz]; [reflexivity |].
      destruct (mul_five_moves z Hz Hfix).
    + intros [-> | ->]; reflexivity.
  - intros z -> Hz Hsame. cbn in Hcount.
    rewrite add_exact in Hsame by (unfold exact; lia).
    injection Hsame as Hsame. lia.
Qed.

Lemma repeated_requests_witness :
  reachable mounted_counter ∧
  displayed (output mounted_counter) = Some (Num 0) ∧
  (requested a_click "Multiply by 5" mounted_counter = [Value (Num 0)] ↔
     Num 0 = Num 0 ∨ Num 0 = Infinity) ∧
  0 < 2 ^ precision ∧
  requested a_click "Add 1" mounted_counter ≠ [Value (Num 0)].
Proof.
  assert (Hsmall : 0 < 2 ^ precision) by reflexivity.
  pose proof (repeated_requests mounted_counter a_click (Num 0)
                mounted_counter_reachable eq_refl) as [_ [Hmul Hadd]].
  split; [exact mounted_counter_reachable |]. split; [reflexivity |].
  split; [exact Hmul |]. split; [exact Hsmall |].
  exact (Hadd 0 eq_refl Hsmall).
Defined.

(** ** The mount statements *)

(** The script is its two mount steps, one after the other. *)
Lemma index_js_steps (d : document) :
  index_js d =
  (mount_step JsxApp "#root";; mount_step JsxDumbComponent "#dumbParagraph") d.
Proof.
  unfold index_js, mount_step, mbind, js_bind.
  destruct (querySelector "#root" d) as [[container | msg] d1];
    [| reflexivity].
  destruct (ReactDOM_render JsxApp container d1) as [[[] | msg] d2];
    reflexivity.
Qed.

(** C2, as stated, fails on a page without the container [root]: the mount
    of the counter throws.  The script stops there, so the static text is
    not rendered either, although its container exists. *)
Lemma missing_root_throws :
  let page : document := {[ "dumbParagraph" := None ]} in
  outcome (querySelector "#root") page = Normal None ∧
  mount_step JsxApp "#root" page =
    (Throw "Target container is not a DOM element.", page) ∧
  index_js page = (Throw "Target container is not a DOM element.", page) ∧
  content "dumbParagraph" (exec index_js page) = None ∧
  ¬ missing_container_is_noop.
Proof.
  intros page.
  split; [reflexivity |]. split; [reflexivity |].
  split; [reflexivity |]. split; [reflexivity |].
  intros Hclaim.
  specialize (Hclaim JsxApp "#root" page eq_refl). discriminate Hclaim.
Qed.

(** C2, amended. A mount against a container identifier that the document
    does not have throws react-dom's "Target container is not a DOM
    element."; the document is left exactly as it was: nothing is rendered
    for the component and no other content changes. *)
Theorem missing_container_throws (t : jsx) (selector : string) (d : document) :
  outcome (querySelector selector) d = Normal None →
  mount_step t selector d =
    (Throw "Target container is not a DOM element.", d).
Proof.
  unfold outcome, mount_step, mbind, js_bind, querySelector.
  destruct selector as [| c id]; [reflexivity |].
  destruct (Ascii.ascii_dec c "#") as [-> | Hc].
  - destruct (d !! id); [discriminate | reflexivity].
  - intros _.
    destruct c as [[] [] [] [] [] [] [] []]; try reflexivity.
    contradiction Hc; reflexivity.
Qed.

Lemma missing_container_throws_witness :
  outcome (querySelector "#dumbParagraph") {[ "root" := None ]} = Normal None ∧
  mount_step JsxDumbComponent "#dumbParagraph" {[ "root" := None ]} =
    (Throw "Target container is not a DOM element.", {[ "root" := None ]}).
Proof.
  split; [reflexivity |].
  apply (missing_container_throws JsxDumbComponent "#dumbParagraph"
           {[ "root" := None ]}).
  reflexivity.
Defined.

(** A render pass of either component completes. *)
Lemma render_pass_total (t : jsx) (cell : hooks) :
  ∃ r, render_pass t cell = Normal r ∧ root_type r = t.
Proof. destruct t, cell; eexists; split; reflexivity. Qed.

Lemma render_pass_static (cell : hooks) :
  render_pass JsxDumbComponent cell =
  Normal {| root_type := JsxDumbComponent; memoizedState := cell;
            output := Text "hey there" |}.
Proof. reflexivity. Qed.

(** Into a container that exists, [ReactDOM.render] completes and puts a
    root of the component there. *)
Lemma ReactDOM_render_found (t : jsx) (id : string) (d : document) :
  ∃ cell r, render_pass t cell = Normal r ∧
            ReactDOM_render t (Some id) d = (Normal (), <[id := Some r]> d).
Proof.
  unfold ReactDOM_render.
  match goal with
  | |- context [render_pass t ?c] =>
      destruct (render_pass_total t c) as [r [Hr _]]; exists c, r
  end.
  rewrite Hr. split; reflexivity.
Qed.

Lemma mount_step_found (t : jsx) (id : string) (d : document) :
  is_Some (d !! id) →
  mount_step t (String "#" id) d = ReactDOM_render t (Some id) d.
Proof.
  intros [x Hx]. unfold mount_step, mbind, js_bind, querySelector.
  rewrite Hx. reflexivity.
Qed.

(** A mount into a container that exists completes and changes that
    container only. *)
Lemma mount_elsewhere (t : jsx) (id other : string) (d : document) :
  is_Some (d !! id) → other ≠ id →
  outcome (mount_step t (String "#" id)) d = Normal () ∧
  exec (mount_step t (String "#" id)) d !! other = d !! other.
Proof.
  intros Hid Hne. unfold outcome, exec.
  rewrite (mount_step_found t id d Hid).
  destruct (ReactDOM_render_found t id d) as [cell [r [_ ->]]].
  split; [reflexivity | apply lookup_insert_ne; congruence].
Qed.

(** ** The static text *)

(** C9. [DumbComponent] takes no argument, touches no state cell and
    returns the string "hey there" on every call; what it returns has no
    handler; and the container it is mounted into, by the script or by any
    mount into an existing container, holds exactly that string. *)
Theorem static_text :
  (∀ cell, DumbComponent cell = (Normal (Text "hey there"), cell)) ∧
  interactive (Text "hey there") = 0%nat ∧
  content "dumbParagraph" (exec index_js index_html)
    = Some (Text "hey there") ∧
  (∀ (d : document) (id : string),
     is_Some (d !! id) →
     content id (exec (mount_step JsxDumbComponent (String "#" id)) d)
       = Some (Text "hey there")).
Proof.
  split; [reflexivity |]. split; [reflexivity |].
  split; [vm_compute; reflexivity |].
  intros d id Hid. unfold content, exec.
  rewrite (mount_step_found JsxDumbComponent id d Hid).
  destruct (ReactDOM_render_found JsxDumbComponent id d)
    as [cell [r [Hr ->]]].
  rewrite render_pass_static in Hr. injection Hr as <-.
  cbn [snd]. rewrite lookup_insert_eq. reflexivity.
Qed.

Lemma static_text_witness :
  is_Some (index_html !! "dumbParagraph") ∧
  content "dumbParagraph"
    (exec (mount_step JsxDumbComponent "#dumbParagraph") index_html)
    = Some (Text "hey there").
Proof.
  assert (Hfound : is_Some (index_html !! "dumbParagraph"))
    by (exists None; reflexivity).
  split; [exact Hfound |].
  exact (proj2 (proj2 (proj2 static_text)) index_html "dumbParagraph" Hfound).
Defined.

(** ** The model against binary64 arithmetic *)

(** One click on "Add 1" and 450 on "Multiply by 5": from the 23rd
    multiplication on the counts are no longer the powers of five, which
    binary64 does not hold, and the 442nd gives [Infinity]; the counter
    displays what binary64 computes all along. *)
Example powers_of_five_agree :
  agrees ("Add 1" :: replicate 450 "Multiply by 5") mounted_counter 0 = true.
Proof. vm_compute. reflexivity. Qed.

(** The same for 200 rounds of "Multiply by 5" then "Add 1". *)
Example mixed_clicks_agree :
  agrees (concat (replicate 200 ["Multiply by 5"; "Add 1"]))
         (after ["Add 1"; "Add 1"] mounted_counter) 2 = true.
Proof. vm_compute. reflexivity. Qed.

(** At 5 ^ 22 the product 5 ^ 23 is a tie and goes to the even neighbour;
    there "Add 1" requests the value the counter already holds. *)
Example first_inexact_products :
  mul (Num (5 ^ 22)) (Num 5) = Num (5 ^ 23 - 1) ∧
  of_float (PrimFloat.mul 2384185791015625 5) = Some (Num (5 ^ 23 - 1)) ∧
  add (Num (5 ^ 23 - 1)) (Num 1) = Num (5 ^ 23 - 1) ∧
  of_float (PrimFloat.add 11920928955078124 1) = Some (Num (5 ^ 23 - 1)).
Proof. vm_compute. repeat split; reflexivity. Qed.

(** Clicks on "Multiply by 5" multiply, one rounding after the other. *)
Lemma after_multiplications (n : nat) (v : number) (r : root) :
  rendered v r →
  rendered (Nat.iter n (λ w, mul w (Num 5)) v)
           (after (replicate n "Multiply by 5") r).
Proof.
  revert v r. induction n as [| n IH]; intros v r Hr.
  - exact Hr.
  - rewrite Nat.iter_succ_r. apply IH.
    exact (click_rendered v r Hr _ a_click "Multiply by 5"
             (requested_mul v r Hr a_click)).
Qed.

(** [Infinity] is a count a user can get to: 442 multiplications after one
    increment overflow, and there both "Multiply by 5" and "Add 1" leave
    [Infinity]. *)
Example overflow_to_infinity :
  (∃ r, reachable r ∧ displayed (output r) = Some Infinity) ∧
  mul Infinity (Num 5) = Infinity ∧ add Infinity (Num 1) = Infinity.
Proof.
  split; [| split; reflexivity].
  exists (after (replicate 442 "Multiply by 5")
            (after ["Add 1"] mounted_counter)).
  split; [apply after_reachable, after_reachable, mounted_counter_reachable |].
  apply rendered_displayed.
  assert (Hinf : Nat.iter 442 (λ w, mul w (Num 5)) (Num 1) = Infinity)
    by (vm_compute; reflexivity).
  rewrite <- Hinf. apply after_multiplications. reflexivity.
Qed.

(** * Further properties *)

(** ** Binary64 values *)

Lemma round_shift_cases (m e : Z) :
  0 ≤ e → round_shift m e = m / 2 ^ e ∨ round_shift m e = m / 2 ^ e + 1.
Proof.
  intros He. unfold round_shift. rewrite Z.shiftr_div_pow2 by exact He.
  case_conditions; auto.
Qed.

(** A multiple of [2 ^ e] is its own nearest multiple. *)
Lemma round_shift_multiple (k e : Z) : 0 < e → round_shift (k * 2 ^ e) e = k.
Proof.
  intros He. unfold round_shift.
  assert (Hp : 0 < 2 ^ e) by (apply Z.pow_pos_nonneg; lia).
  rewrite Z.shiftr_div_pow2, Z.land_ones, Z.shiftl_mul_pow2 by lia.
  rewrite Z.div_mul, Z.mod_mul by lia.
  assert (Hhalf : 0 < 2 ^ (e - 1)) by (apply Z.pow_pos_nonneg; lia).
  destruct (Z.ltb_spec 0 (1 * 2 ^ (e - 1))); [reflexivity | lia].
Qed.

(** The exponent of a magnitude from [2 ^ 53] on, and its significand. *)
Lemma significand_bounds (m : Z) :
  2 ^ precision ≤ m →
  let e := Z.log2 m - (precision - 1) in
  0 < e ∧ 2 ^ 52 * 2 ^ e ≤ m < 2 ^ 53 * 2 ^ e ∧
  2 ^ 52 ≤ m / 2 ^ e < 2 ^ 53.
Proof.
  intros Hm e.
  assert (Hpos : 0 < m) by (unfold precision in Hm; lia).
  assert (Hlog : precision ≤ Z.log2 m)
    by (apply Z.log2_le_pow2; [lia | exact Hm]).
  assert (He : 0 < e) by (unfold e, precision in *; lia).
  assert (Hp : 0 < 2 ^ e) by (apply Z.pow_pos_nonneg; lia).
  destruct (Z.log2_spec m Hpos) as [Hlo Hhi].
  assert (Hlow : 2 ^ 52 * 2 ^ e ≤ m).
  { rewrite <- Z.pow_add_r by lia.
    replace (52 + e) with (Z.log2 m) by (unfold e, precision; lia).
    exact Hlo. }
  assert (Hup : m < 2 ^ 53 * 2 ^ e).
  { rewrite <- Z.pow_add_r by lia.
    replace (53 + e) with (Z.succ (Z.log2 m)) by (unfold e, precision; lia).
    exact Hhi. }
  split; [exact He |]. split; [split; assumption |]. split.
  - apply Z.div_le_lower_bound; lia.
  - apply Z.div_lt_upper_bound; lia.
Qed.

(** What rounding gives is a binary64 value: rounding it again changes
    nothing. *)
Lemma round_magnitude_idempotent (m : Z) :
  round_magnitude (round_magnitude m) = round_magnitude m.
Proof.
  destruct (Z_lt_le_dec m (2 ^ precision)) as [Hlt | Hge].
  - rewrite (round_magnitude_small m Hlt). apply round_magnitude_small, Hlt.
  - destruct (significand_bounds m Hge) as [He [_ [Hq52 Hq53]]].
    set (e := Z.log2 m - (precision - 1)) in *.
    assert (Hp : 0 < 2 ^ e) by (apply Z.pow_pos_nonneg; lia).
    assert (HR : round_magnitude m = round_shift m e * 2 ^ e).
    { unfold round_magnitude.
      destruct (Z.ltb_spec m (2 ^ precision)); [lia |].
      fold e. apply Z.shiftl_mul_pow2. lia. }
    rewrite HR.
    set (k := round_shift m e).
    assert (Hk : 2 ^ 52 ≤ k ≤ 2 ^ 53)
      by (destruct (round_shift_cases m e ltac:(lia)); unfold k; lia).
    assert (Hbig : 2 ^ precision ≤ k * 2 ^ e).
    { unfold precision. change (2 ^ 53) with (2 ^ 52 * 2).
      assert (2 ≤ 2 ^ e) by (change 2 with (2 ^ 1) at 1;
                             apply Z.pow_le_mono_r; lia).
      nia. }
    unfold round_magnitude.
    destruct (Z.ltb_spec (k * 2 ^ e) (2 ^ precision)); [lia |].
    destruct (Z.eq_dec k (2 ^ 53)) as [Hmax | Hnot].
    + assert (Hform : k * 2 ^ e = 2 ^ 52 * 2 ^ (e + 1)).
      { rewrite Hmax, Z.pow_add_r by lia.
        change (2 ^ 53) with (2 ^ 52 * 2 ^ 1). ring. }
      rewrite Hform.
      rewrite Z.log2_mul_pow2 by lia.
      change (Z.log2 (2 ^ 52)) with 52.
      replace (e + 1 + 52 - (precision - 1)) with (e + 1)
        by (unfold precision; lia).
      rewrite round_shift_multiple by lia.
      apply Z.shiftl_mul_pow2. lia.
    + rewrite Z.log2_mul_pow2 by lia.
      assert (Hlk : Z.log2 k = 52)
        by (apply Z.log2_unique; change (Z.succ 52) with 53; lia).
      rewrite Hlk.
      replace (e + 52 - (precision - 1)) with e by (unfold precision; lia).
      rewrite round_shift_multiple by lia.
      apply Z.shiftl_mul_pow2. lia.
Qed.

Lemma round_to_double_representable (z : Z) :
  0 ≤ z → representable (round_to_double z).
Proof.
  intros Hz. unfold round_to_double.
  destruct (Z.leb_spec overflow_threshold (round_magnitude (Z.abs z)))
    as [Hover | Hfit].
  - destruct (z <? 0); exact I.
  - cbn. rewrite Z.abs_eq in * by exact Hz.
    destruct (Z.eq_dec z 0) as [-> | Hnz].
    + split; [reflexivity |]. cbn. reflexivity.
    + replace (Z.sgn z) with 1 by (symmetry; apply Z.sgn_pos; lia).
      rewrite Z.mul_1_l. split; [apply round_magnitude_idempotent | exact Hfit].
Qed.

(** Adding 1 to a binary64 natural number never gives less. *)
Lemma add_one_le (z : Z) :
  0 ≤ z → round_magnitude z = z → le_count (Num z) (add (Num z) (Num 1)).
Proof.
  intros Hz Hrep. cbn [add]. unfold round_to_double.
  rewrite Z.abs_eq by lia.
  assert (Hge : z ≤ round_magnitude (z + 1)).
  { destruct (Z_lt_le_dec (z + 1) (2 ^ precision)) as [Hlt | Hbig].
    - rewrite round_magnitude_small by exact Hlt. lia.
    - destruct (Z.eq_dec (z + 1) (2 ^ precision)) as [Heq | Hne].
      + rewrite Heq, round_magnitude_limit. lia.
      + assert (Hzbig : 2 ^ precision ≤ z) by lia.
        destruct (significand_bounds z Hzbig) as [He [[Hlo Hhi] _]].
        set (e := Z.log2 z - (precision - 1)) in *.
        assert (Hp : 0 < 2 ^ e) by (apply Z.pow_pos_nonneg; lia).
        assert (Hp2 : 2 ≤ 2 ^ e)
          by (change 2 with (2 ^ 1) at 1; apply Z.pow_le_mono_r; lia).
        (* z is a multiple of 2 ^ e *)
        assert (Hmult : z = round_shift z e * 2 ^ e).
        { rewrite <- Hrep at 1. unfold round_magnitude.
          destruct (Z.ltb_spec z (2 ^ precision)); [lia |].
          fold e. apply Z.shiftl_mul_pow2. lia. }
        set (k := round_shift z e) in *.
        destruct (significand_bounds (z + 1) Hbig) as [He' [[Hlo' Hhi'] _]].
        set (e' := Z.log2 (z + 1) - (precision - 1)) in *.
        assert (HR : round_magnitude (z + 1)
                     = round_shift (z + 1) e' * 2 ^ e').
        { unfold round_magnitude.
          destruct (Z.ltb_spec (z + 1) (2 ^ precision)); [lia |].
          fold e'. apply Z.shiftl_mul_pow2. lia. }
        rewrite HR.
        assert (Hp' : 0 < 2 ^ e') by (apply Z.pow_pos_nonneg; lia).
        pose proof (round_shift_lower (z + 1) e' ltac:(lia)) as Hq.
        pose proof (Z.div_mod (z + 1) (2 ^ e') ltac:(lia)) as Hdm.
        pose proof (Z.mod_pos_bound (z + 1) (2 ^ e') Hp') as Hr.
        assert (Hmul : (z + 1) / 2 ^ e' * 2 ^ e'
                       ≤ round_shift (z + 1) e' * 2 ^ e')
          by (apply Z.mul_le_mono_nonneg_r; lia).
        destruct (Z.log2_succ_or z) as [Hsucc | Hsame].
        * (* the exponent grows: z + 1 is a power of two *)
          assert (He1 : e' = e + 1)
            by (unfold e', e; change (Z.succ z) with (z + 1) in Hsucc; lia).
          assert (Hpow : z + 1 = 2 ^ 52 * 2 ^ e').
          { rewrite He1 in Hlo' |- *. rewrite Z.pow_add_r in Hlo' |- * by lia.
            change (2 ^ 1) with 2 in *.
            change (2 ^ 53) with (2 ^ 52 * 2) in Hhi. lia. }
          assert (Hmod : (z + 1) mod 2 ^ e' = 0)
            by (rewrite Hpow; apply Z.mod_mul; lia).
          lia.
        * assert (He1 : e' = e)
            by (unfold e', e; change (Z.succ z) with (z + 1) in Hsame; lia).
          rewrite He1 in *.
          assert (Hmod : (z + 1) mod 2 ^ e = 1).
          { rewrite Hmult, Z.add_comm, Z_mod_plus_full.
            apply Z.mod_small. lia. }
          lia. }
  destruct (_ <=? _).
  - destruct (Z.ltb_spec (z + 1) 0); [lia | exact I].
  - cbn. replace (Z.sgn (z + 1)) with 1 by (symmetry; apply Z.sgn_pos; lia).
    lia.
Qed.

(** Multiplying a natural number by 5 never gives less. *)
Lemma mul_five_le (z : Z) : 0 ≤ z → le_count (Num z) (mul (Num z) (Num 5)).
Proof.
  intros Hz. cbn [mul]. unfold round_to_double.
  rewrite Z.abs_eq by lia.
  assert (Hge : z ≤ round_magnitude (z * 5)).
  { destruct (Z_lt_le_dec (z * 5) (2 ^ precision)) as [Hlt | Hbig].
    - rewrite round_magnitude_small by exact Hlt. lia.
    - pose proof (round_magnitude_lower (z * 5) Hbig) as Hlow.
      change (2 ^ 52) with 4503599627370496 in Hlow. lia. }
  destruct (_ <=? _).
  - destruct (Z.ltb_spec (z * 5) 0); [lia | exact I].
  - cbn. destruct (Z.eq_dec z 0) as [-> | Hnz]; [cbn in *; lia |].
    replace (Z.sgn (z * 5)) with 1 by (symmetry; apply Z.sgn_pos; lia).
    lia.
Qed.

(** ** Clicks, count by count *)

(** A click takes the render of [v] to the render of [next_count label v]. *)
Lemma click_next (v : number) (r : root) (ev : SyntheticEvent)
  (label : string) :
  rendered v r → rendered (next_count label v) (click ev label r).
Proof.
  intros Hr. unfold next_count, click, requested.
  rewrite (rendered_buttons v r Hr label).
  case_conditions; try exact (process_queue_rendered v r Hr [Value _]).
  exact (process_queue_rendered v r Hr []).
Qed.

Lemma after_counts (labels : list string) (v : number) (r : root) :
  rendered v r → rendered (counts_after labels v) (after labels r).
Proof.
  revert v r. induction labels as [| label rest IH]; intros v r Hr.
  - exact Hr.
  - apply IH, click_next, Hr.
Qed.

Lemma next_count_invariant (label : string) (v : number) :
  is_count v → representable v →
  is_count (next_count label v) ∧ representable (next_count label v).
Proof.
  intros Hc Hrep. unfold next_count. case_conditions.
  - split; [apply add_one_count, Hc |].
    destruct v as [z | | |]; [| exact I | destruct Hc ..].
    apply round_to_double_representable. cbn in Hc. lia.
  - split; [apply mul_five_count, Hc |].
    destruct v as [z | | |]; [| exact I | destruct Hc ..].
    apply round_to_double_representable. cbn in Hc. lia.
  - split; [cbn; lia | split; reflexivity].
  - auto.
Qed.

Lemma next_count_le (label : string) (v : number) :
  is_count v → representable v → label ≠ "Reset" →
  le_count v (next_count label v).
Proof.
  intros Hc Hrep Hlabel. unfold next_count.
  destruct v as [z | | |]; [| | destruct Hc ..].
  - cbn in Hc. destruct Hrep as [Hrep _].
    destruct (String.eqb "Add 1" label); [apply add_one_le; assumption |].
    destruct (String.eqb "Multiply by 5" label); [apply mul_five_le, Hc |].
    destruct (String.eqb_spec "Reset" label); [congruence |].
    cbn. lia.
  - destruct (String.eqb "Add 1" label); [exact I |].
    destruct (String.eqb "Multiply by 5" label); [exact I |].
    destruct (String.eqb_spec "Reset" label); [congruence | exact I].
Qed.

Lemma le_count_trans (u v w : number) :
  le_count u v → le_count v w → le_count u w.
Proof.
  destruct u, v, w; cbn; try tauto. lia.
Qed.

Lemma le_count_refl (v : number) : is_count v → le_count v v.
Proof. destruct v; cbn; try tauto. lia. Qed.

(** Every counter a user can get to is the render of a count that is a
    binary64 value. *)
Lemma reachable_invariant (r : root) :
  reachable r → ∃ v, rendered v r ∧ is_count v ∧ representable v.
Proof.
  induction 1 as [r Hmount | r ev label _ [v [Hr [Hc Hrep]]]].
  - exists (Num 0). split; [exact Hmount |].
    split; [cbn; lia | split; reflexivity].
  - exists (next_count label v). split; [apply click_next, Hr |].
    apply next_count_invariant; assumption.
Qed.

Lemma reachable_shows (r : root) (v : number) :
  reachable r → displayed (output r) = Some v →
  rendered v r ∧ is_count v ∧ representable v.
Proof.
  intros Hreach Hshow.
  destruct (reachable_invariant r Hreach) as [w [Hw Hinv]].
  rewrite (rendered_displayed w r Hw) in Hshow.
  injection Hshow as <-. auto.
Qed.

(** ** What the counter keeps *)

(** X1. Every counter a user can get to displays exactly what its state
    cell holds, and that is a natural number or [Infinity], never a
    negative number and never [NaN]; when it is a number, it is a binary64
    value below [2 ^ 1024]. *)
Theorem count_invariant (r : root) :
  reachable r →
  ∃ v, memoizedState r = Some v ∧ displayed (output r) = Some v ∧
       is_count v ∧ representable v.
Proof.
  intros Hreach. destruct (reachable_invariant r Hreach) as [v [Hr [Hc Hrep]]].
  exists v. split; [exact (rendered_cell v r Hr) |].
  split; [exact (rendered_displayed v r Hr) | auto].
Qed.

Lemma count_invariant_witness :
  reachable (after ["Add 1"; "Multiply by 5"] mounted_counter) ∧
  ∃ v, memoizedState (after ["Add 1"; "Multiply by 5"] mounted_counter)
         = Some v ∧
       displayed (output (after ["Add 1"; "Multiply by 5"] mounted_counter))
         = Some v ∧
       is_count v ∧ representable v.
Proof.
  assert (Hreach : reachable (after ["Add 1"; "Multiply by 5"] mounted_counter))
    by apply after_reachable, mounted_counter_reachable.
  split; [exact Hreach |].
  exact (count_invariant _ Hreach).
Defined.

(** X2. Every render of the counter has the same three handlers, and
    nothing else to click: its output holds exactly three [onClick], found
    under the labels "Add 1", "Multiply by 5" and "Reset", and no button
    under any other label. *)
Theorem three_buttons (r : root) (label : string) :
  reachable r →
  interactive (output r) = 3%nat ∧
  (is_Some (find_button label (output r)) ↔
     label = "Add 1" ∨ label = "Multiply by 5" ∨ label = "Reset").
Proof.
  intros Hreach. destruct (reachable_invariant r Hreach) as [v [Hr _]].
  split; [injection Hr as <-; reflexivity |].
  rewrite (rendered_buttons v r Hr label).
  destruct (String.eqb_spec "Add 1" label) as [Heq | H1];
    [subst label; split; [auto | eexists; reflexivity] |].
  destruct (String.eqb_spec "Multiply by 5" label) as [Heq | H2];
    [subst label; split; [auto | eexists; reflexivity] |].
  destruct (String.eqb_spec "Reset" label) as [Heq | H3];
    [subst label; split; [auto | eexists; reflexivity] |].
  split; [intros [h Hh]; discriminate | intros [Heq | [Heq | Heq]]; congruence].
Qed.

Lemma three_buttons_witness :
  reachable mounted_counter ∧
  interactive (output mounted_counter) = 3%nat ∧
  (is_Some (find_button "Reset" (output mounted_counter)) ↔
     "Reset" = "Add 1" ∨ "Reset" = "Multiply by 5" ∨ "Reset" = "Reset").
Proof.
  split; [exact mounted_counter_reachable |].
  exact (three_buttons mounted_counter "Reset" mounted_counter_reachable).
Defined.

(** X3. A click under any label other than the three requests nothing and
    leaves the counter exactly as it is. *)
Theorem other_labels_inert (r : root) (ev : SyntheticEvent) (label : string) :
  reachable r →
  label ≠ "Add 1" → label ≠ "Multiply by 5" → label ≠ "Reset" →
  requested ev label r = [] ∧ click ev label r = r.
Proof.
  intros Hreach H1 H2 H3.
  destruct (reachable_invariant r Hreach) as [v [Hr _]].
  assert (Hq : requested ev label r = []).
  { unfold requested. rewrite (rendered_buttons v r Hr label).
    destruct (String.eqb_spec "Add 1" label); [congruence |].
    destruct (String.eqb_spec "Multiply by 5" label); [congruence |].
    destruct (String.eqb_spec "Reset" label); [congruence | reflexivity]. }
  split; [exact Hq | exact (click_nothing v r Hr ev label Hq)].
Qed.

Lemma other_labels_inert_witness :
  reachable mounted_counter ∧
  "React Counter" ≠ "Add 1" ∧ "React Counter" ≠ "Multiply by 5" ∧
  "React Counter" ≠ "Reset" ∧
  click a_click "React Counter" mounted_counter = mounted_counter.
Proof.
  assert (H1 : "React Counter" ≠ "Add 1") by discriminate.
  assert (H2 : "React Counter" ≠ "Multiply by 5") by discriminate.
  assert (H3 : "React Counter" ≠ "Reset") by discriminate.
  split; [exact mounted_counter_reachable |].
  split; [exact H1 |]. split; [exact H2 |]. split; [exact H3 |].
  exact (proj2 (other_labels_inert mounted_counter a_click "React Counter"
                  mounted_counter_reachable H1 H2 H3)).
Defined.

(** X4. Whatever button is clicked, its handler completes without
    throwing and adds exactly one update to the updates already pending,
    which it leaves in place. *)
Theorem handlers_complete (r : root) (ev : SyntheticEvent) (label : string)
  (h : handler) (pending : list action) :
  reachable r → find_button label (output r) = Some h →
  outcome (h ev) pending = Normal () ∧
  ∃ n, exec (h ev) pending = pending ++ [Value n].
Proof.
  intros Hreach. destruct (reachable_invariant r Hreach) as [v [Hr _]].
  rewrite (rendered_buttons v r Hr label).
  case_conditions; intros [= <-] || discriminate;
    (split; [reflexivity | eexists; reflexivity]).
Qed.

Lemma handlers_complete_witness :
  let h : handler := λ _, dispatchAction (Value (Num 0)) in
  reachable mounted_counter ∧
  find_button "Reset" (output mounted_counter) = Some h ∧
  outcome (h a_click) [Value (Num 7)] = Normal () ∧
  ∃ n, exec (h a_click) [Value (Num 7)] = [Value (Num 7)] ++ [Value n].
Proof.
  intros h.
  assert (Hfind : find_button "Reset" (output mounted_counter) = Some h)
    by reflexivity.
  split; [exact mounted_counter_reachable |]. split; [exact Hfind |].
  exact (handlers_complete mounted_counter a_click "Reset" h [Value (Num 7)]
           mounted_counter_reachable Hfind).
Defined.

(** ** Reset *)

(** "Reset" on a rendered counter gives the first render. *)
Lemma reset_rendered (v : number) (r : root) (ev : SyntheticEvent) :
  rendered v r → click ev "Reset" r = mounted_counter.
Proof.
  intros Hr. apply (rendered_unique (Num 0)).
  - exact (click_rendered v r Hr (Num 0) ev "Reset"
             (requested_reset v r Hr ev)).
  - reflexivity.
Qed.

(** X5. From every counter a user can get to, a click on "Reset" leads to
    the very counter the first render left: the same cell, the same
    output. *)
Theorem reset_is_first_render (r : root) (ev : SyntheticEvent) :
  reachable r → click ev "Reset" r = mounted_counter.
Proof.
  intros Hreach. destruct (reachable_invariant r Hreach) as [v [Hr _]].
  exact (reset_rendered v r ev Hr).
Qed.

Lemma reset_is_first_render_witness :
  reachable (after ["Add 1"; "Multiply by 5"; "Add 1"] mounted_counter) ∧
  click a_click "Reset"
    (after ["Add 1"; "Multiply by 5"; "Add 1"] mounted_counter)
  = mounted_counter.
Proof.
  assert (Hreach : reachable
            (after ["Add 1"; "Multiply by 5"; "Add 1"] mounted_counter))
    by apply after_reachable, mounted_counter_reachable.
  split; [exact Hreach |].
  exact (reset_is_first_render _ a_click Hreach).
Defined.

(** X6. "Reset" forgets what came before it: a run of clicks with a
    "Reset" in it ends where the clicks after that "Reset" end from a fresh
    mount. *)
Theorem reset_forgets (r : root) (before rest : list string) :
  reachable r →
  after (before ++ "Reset" :: rest) r = after rest mounted_counter.
Proof.
  intros Hreach.
  destruct (reachable_invariant _ (after_reachable before r Hreach))
    as [v [Hr _]].
  unfold after in *. rewrite foldl_app. cbn [foldl].
  f_equal. exact (reset_rendered v _ a_click Hr).
Qed.

Lemma reset_forgets_witness :
  reachable mounted_counter ∧
  after (["Add 1"; "Multiply by 5"] ++ "Reset" :: ["Add 1"]) mounted_counter
  = after ["Add 1"] mounted_counter.
Proof.
  split; [exact mounted_counter_reachable |].
  exact (reset_forgets mounted_counter ["Add 1"; "Multiply by 5"] ["Add 1"]
           mounted_counter_reachable).
Defined.

(** ** Runs of clicks *)

Lemma next_count_exact (label : string) (z : Z) :
  exact (ideal_step label z) →
  next_count label (Num z) = Num (ideal_step label z).
Proof.
  unfold next_count, ideal_step. case_conditions; intros Hz.
  - apply add_exact, Hz.
  - apply mul_exact, Hz.
  - reflexivity.
  - reflexivity.
Qed.

Lemma counts_after_exact (labels : list string) (z : Z) :
  within labels z → counts_after labels (Num z) = Num (ideal labels z).
Proof.
  revert z. induction labels as [| label rest IH]; intros z Hin.
  - reflexivity.
  - destruct Hin as [Hstep Hrest]. unfold counts_after, ideal. cbn [foldl].
    rewrite next_count_exact by exact Hstep. apply IH, Hrest.
Qed.

Lemma after_exact (r : root) (z : Z) (labels : list string) :
  rendered (Num z) r → within labels z →
  displayed (output (after labels r)) = Some (Num (ideal labels z)).
Proof.
  intros Hr Hin. rewrite <- (counts_after_exact labels z Hin).
  apply rendered_displayed, after_counts, Hr.
Qed.

(** Runs of "Add 1" and of "Multiply by 5" in exact arithmetic. *)
Lemma add_run_exact (k : nat) (z : Z) :
  0 ≤ z → z + Z.of_nat k ≤ 2 ^ precision →
  within (replicate k "Add 1") z ∧
  ideal (replicate k "Add 1") z = z + Z.of_nat k.
Proof.
  revert z. induction k as [| k IH]; intros z Hz Hk.
  - split; [exact I | cbn; lia].
  - destruct (IH (z + 1) ltac:(lia) ltac:(lia)) as [Hin Hid].
    split.
    + split; [| exact Hin].
      unfold exact. change (ideal_step "Add 1" z) with (z + 1). lia.
    + unfold ideal in *. cbn [replicate foldl].
      change (ideal_step "Add 1" z) with (z + 1). rewrite Hid. lia.
Qed.

Lemma multiply_run_exact (k : nat) (z : Z) :
  0 ≤ z → z * 5 ^ Z.of_nat k ≤ 2 ^ precision →
  within (replicate k "Multiply by 5") z ∧
  ideal (replicate k "Multiply by 5") z = z * 5 ^ Z.of_nat k.
Proof.
  revert z. induction k as [| k IH]; intros z Hz Hk.
  - split; [exact I | cbn; lia].
  - assert (Hpow : 5 ^ Z.of_nat (S k) = 5 * 5 ^ Z.of_nat k)
      by (rewrite Nat2Z.inj_succ, Z.pow_succ_r by lia; reflexivity).
    assert (Hone : 0 < 5 ^ Z.of_nat k) by (apply Z.pow_pos_nonneg; lia).
    rewrite Hpow in Hk |- *.
    destruct (IH (z * 5) ltac:(lia) ltac:(lia)) as [Hin Hid].
    split.
    + split; [| exact Hin].
      unfold exact. change (ideal_step "Multiply by 5" z) with (z * 5).
      rewrite Z.abs_eq by lia. nia.
    + unfold ideal in *. cbn [replicate foldl].
      change (ideal_step "Multiply by 5" z) with (z * 5). rewrite Hid. lia.
Qed.

(** Without "Reset" the counts only grow. *)
Lemma counts_after_le (labels : list string) (v : number) :
  is_count v → representable v →
  Forall (λ label, label ≠ "Reset") labels →
  le_count v (counts_after labels v).
Proof.
  intros Hc Hrep Hlabels. revert v Hc Hrep.
  induction Hlabels as [| label rest Hlabel _ IH]; intros v Hc Hrep.
  - apply le_count_refl, Hc.
  - destruct (next_count_invariant label v Hc Hrep) as [Hc' Hrep'].
    apply (le_count_trans _ (next_count label v)).
    + apply next_count_le; assumption.
    + exact (IH _ Hc' Hrep').
Qed.

(** X7. As long as every count along the way, computed in exact integer
    arithmetic, is of magnitude [2 ^ 53] at most, a run of clicks displays
    the integer that exact arithmetic gives: plus 1 for "Add 1", times 5
    for "Multiply by 5", 0 for "Reset". *)
Theorem exact_within_range (r : root) (z : Z) (labels : list string) :
  reachable r → displayed (output r) = Some (Num z) → within labels z →
  displayed (output (after labels r)) = Some (Num (ideal labels z)).
Proof.
  intros Hreach Hshow Hin.
  destruct (reachable_shows r (Num z) Hreach Hshow) as [Hr _].
  exact (after_exact r z labels Hr Hin).
Qed.

Lemma exact_within_range_witness :
  reachable mounted_counter ∧
  displayed (output mounted_counter) = Some (Num 0) ∧
  within ["Add 1"; "Add 1"; "Multiply by 5"; "Add 1"] 0 ∧
  displayed (output (after ["Add 1"; "Add 1"; "Multiply by 5"; "Add 1"]
                       mounted_counter))
  = Some (Num (ideal ["Add 1"; "Add 1"; "Multiply by 5"; "Add 1"] 0)).
Proof.
  assert (Hin : within ["Add 1"; "Add 1"; "Multiply by 5"; "Add 1"] 0)
    by (cbn; unfold exact, precision; lia).
  split; [exact mounted_counter_reachable |]. split; [reflexivity |].
  split; [exact Hin |].
  exact (exact_within_range mounted_counter 0 _
           mounted_counter_reachable eq_refl Hin).
Defined.

(** X8. From a fresh mount, [n] clicks on "Add 1" display [n], for every
    [n] up to [2 ^ 53]. *)
Theorem add_one_counts (n : nat) :
  Z.of_nat n ≤ 2 ^ precision →
  displayed (output (after (replicate n "Add 1") mounted_counter))
  = Some (Num (Z.of_nat n)).
Proof.
  intros Hn.
  destruct (add_run_exact n 0 ltac:(lia) ltac:(lia)) as [Hin Hid].
  rewrite (after_exact mounted_counter 0 (replicate n "Add 1") eq_refl Hin).
  rewrite Hid. reflexivity.
Qed.

Lemma add_one_counts_witness :
  Z.of_nat 7 ≤ 2 ^ precision ∧
  displayed (output (after (replicate 7 "Add 1") mounted_counter))
  = Some (Num (Z.of_nat 7)).
Proof.
  assert (Hn : Z.of_nat 7 ≤ 2 ^ precision) by (unfold precision; lia).
  split; [exact Hn | exact (add_one_counts 7 Hn)].
Defined.

(** X9. From a counter displaying the natural number [z], [k] clicks on
    "Multiply by 5" display [z * 5 ^ k], as long as that is [2 ^ 53] at
    most. *)
Theorem multiply_powers (r : root) (z : Z) (k : nat) :
  reachable r → displayed (output r) = Some (Num z) →
  z * 5 ^ Z.of_nat k ≤ 2 ^ precision →
  displayed (output (after (replicate k "Multiply by 5") r))
  = Some (Num (z * 5 ^ Z.of_nat k)).
Proof.
  intros Hreach Hshow Hk.
  destruct (reachable_shows r (Num z) Hreach Hshow) as [Hr [Hz _]].
  cbn in Hz.
  destruct (multiply_run_exact k z Hz Hk) as [Hin Hid].
  rewrite (after_exact r z _ Hr Hin), Hid. reflexivity.
Qed.

Lemma multiply_powers_witness :
  reachable (after ["Add 1"; "Add 1"] mounted_counter) ∧
  displayed (output (after ["Add 1"; "Add 1"] mounted_counter))
    = Some (Num 2) ∧
  2 * 5 ^ Z.of_nat 3 ≤ 2 ^ precision ∧
  displayed (output (after (replicate 3 "Multiply by 5")
                       (after ["Add 1"; "Add 1"] mounted_counter)))
  = Some (Num (2 * 5 ^ Z.of_nat 3)).
Proof.
  assert (Hreach : reachable (after ["Add 1"; "Add 1"] mounted_counter))
    by apply after_reachable, mounted_counter_reachable.
  assert (Hk : 2 * 5 ^ Z.of_nat 3 ≤ 2 ^ precision)
    by (unfold precision; cbn; lia).
  split; [exact Hreach |]. split; [reflexivity |]. split; [exact Hk |].
  exact (multiply_powers _ 2 3 Hreach eq_refl Hk).
Defined.

(** X10. Clicks other than "Reset" never lower the count: after any run
    of such clicks the counter displays a count at least as large as
    before, rounding and overflow included. *)
Theorem never_lower_without_reset (r : root) (v : number)
  (labels : list string) :
  reachable r → displayed (output r) = Some v →
  Forall (λ label, label ≠ "Reset") labels →
  ∃ w, displayed (output (after labels r)) = Some w ∧ le_count v w.
Proof.
  intros Hreach Hshow Hlabels.
  destruct (reachable_shows r v Hreach Hshow) as [Hr [Hc Hrep]].
  exists (counts_after labels v).
  split; [apply rendered_displayed, after_counts, Hr |].
  exact (counts_after_le labels v Hc Hrep Hlabels).
Qed.

Lemma never_lower_without_reset_witness :
  reachable (after ["Add 1"] mounted_counter) ∧
  displayed (output (after ["Add 1"] mounted_counter)) = Some (Num 1) ∧
  Forall (λ label, label ≠ "Reset") ["Multiply by 5"; "Add 1"] ∧
  ∃ w, displayed (output (after ["Multiply by 5"; "Add 1"]
                            (after ["Add 1"] mounted_counter))) = Some w ∧
       le_count (Num 1) w.
Proof.
  assert (Hreach : reachable (after ["Add 1"] mounted_counter))
    by apply after_reachable, mounted_counter_reachable.
  assert (Hlabels : Forall (λ label, label ≠ "Reset")
                      ["Multiply by 5"; "Add 1"])
    by (repeat constructor; discriminate).
  split; [exact Hreach |]. split; [reflexivity |]. split; [exact Hlabels |].
  exact (never_lower_without_reset _ (Num 1) _ Hreach eq_refl Hlabels).
Defined.

(** X11. Once the counter displays [Infinity], no click but "Reset"
    changes what it displays. *)
Theorem infinity_stays (r : root) (labels : list string) :
  reachable r → displayed (output r) = Some Infinity →
  Forall (λ label, label ≠ "Reset") labels →
  displayed (output (after labels r)) = Some Infinity.
Proof.
  intros Hreach Hshow Hlabels.
  destruct (reachable_shows r Infinity Hreach Hshow) as [Hr [Hc Hrep]].
  pose proof (counts_after_le labels Infinity Hc Hrep Hlabels) as Hle.
  rewrite (rendered_displayed _ _ (after_counts labels Infinity r Hr)).
  destruct (counts_after labels Infinity); cbn in Hle; try contradiction.
  reflexivity.
Qed.

(** The overflow, click by click. *)
Lemma overflow_reached :
  displayed (output (after ("Add 1" :: replicate 442 "Multiply by 5")
                       mounted_counter)) = Some Infinity.
Proof. vm_compute. reflexivity. Qed.

Lemma infinity_stays_witness :
  let r := after ("Add 1" :: replicate 442 "Multiply by 5") mounted_counter in
  reachable r ∧ displayed (output r) = Some Infinity ∧
  Forall (λ label, label ≠ "Reset") ["Add 1"; "Multiply by 5"] ∧
  displayed (output (after ["Add 1"; "Multiply by 5"] r)) = Some Infinity.
Proof.
  intros r.
  assert (Hreach : reachable r)
    by apply after_reachable, mounted_counter_reachable.
  assert (Hlabels : Forall (λ label, label ≠ "Reset")
                      ["Add 1"; "Multiply by 5"])
    by (repeat constructor; discriminate).
  split; [exact Hreach |]. split; [exact overflow_reached |].
  split; [exact Hlabels |].
  exact (infinity_stays r _ Hreach overflow_reached Hlabels).
Defined.

(** ** The script on a page *)

Lemma querySelector_id (id : string) (d : document) :
  querySelector (String "#" id) d =
  (Normal (match d !! id with Some _ => Some id | None => None end), d).
Proof. unfold querySelector. destruct (d !! id); reflexivity. Qed.

(** X12. On a page whose containers [root] and [dumbParagraph] are both
    there and empty, the script completes; it puts the freshly rendered
    counter into [root] and the static text into [dumbParagraph], and
    leaves every other container as it was. *)
Theorem script_mounts_both (d : document) :
  d !! "root" = Some None → d !! "dumbParagraph" = Some None →
  index_js d =
  (Normal (),
   <["dumbParagraph" := Some mounted_text]>
     (<["root" := Some mounted_counter]> d)).
Proof.
  intros Hroot Htext.
  unfold index_js, mbind, js_bind. rewrite querySelector_id, Hroot.
  unfold ReactDOM_render at 1. rewrite Hroot. cbn [render_pass].
  change (render_pass JsxApp None) with (Normal mounted_counter).
  cbn iota beta.
  rewrite querySelector_id, lookup_insert_ne, Htext by discriminate.
  unfold ReactDOM_render. rewrite lookup_insert_ne, Htext by discriminate.
  reflexivity.
Qed.

Lemma script_mounts_both_witness :
  let page : document :=
    {[ "root" := None; "dumbParagraph" := None; "sidebar" := None ]} in
  page !! "root" = Some None ∧ page !! "dumbParagraph" = Some None ∧
  index_js page =
  (Normal (),
   <["dumbParagraph" := Some mounted_text]>
     (<["root" := Some mounted_counter]> page)).
Proof.
  intros page.
  assert (Hroot : page !! "root" = Some None) by reflexivity.
  assert (Htext : page !! "dumbParagraph" = Some None) by reflexivity.
  split; [exact Hroot |]. split; [exact Htext |].
  exact (script_mounts_both page Hroot Htext).
Defined.

(** X13. On a page without the container [root] the script throws at its
    first mount and changes nothing: the static text is not rendered,
    whether or not its container is there. *)
Theorem script_without_root (d : document) :
  d !! "root" = None →
  index_js d = (Throw "Target container is not a DOM element.", d).
Proof.
  intros Hroot. unfold index_js, mbind, js_bind.
  rewrite querySelector_id, Hroot. reflexivity.
Qed.

Lemma script_without_root_witness :
  let page : document := {[ "dumbParagraph" := None; "sidebar" := None ]} in
  page !! "root" = None ∧
  index_js page = (Throw "Target container is not a DOM element.", page).
Proof.
  intros page.
  assert (Hroot : page !! "root" = None) by reflexivity.
  split; [exact Hroot | exact (script_without_root page Hroot)].
Defined.

(** X14. On a page with an empty container [root] but no container
    [dumbParagraph], the script throws at its second mount, after the
    counter has been rendered: the counter is in [root], and nothing else
    has changed. *)
Theorem script_without_paragraph (d : document) :
  d !! "root" = Some None → d !! "dumbParagraph" = None →
  index_js d =
  (Throw "Target container is not a DOM element.",
   <["root" := Some mounted_counter]> d).
Proof.
  intros Hroot Htext.
  unfold index_js, mbind, js_bind. rewrite querySelector_id, Hroot.
  unfold ReactDOM_render at 1. rewrite Hroot. cbn [render_pass].
  change (render_pass JsxApp None) with (Normal mounted_counter).
  cbn iota beta.
  rewrite querySelector_id, lookup_insert_ne, Htext by discriminate.
  reflexivity.
Qed.

Lemma script_without_paragraph_witness :
  let page : document := {[ "root" := None ]} in
  page !! "root" = Some None ∧ page !! "dumbParagraph" = None ∧
  index_js page =
  (Throw "Target container is not a DOM element.",
   <["root" := Some mounted_counter]> page).
Proof.
  intros page.
  assert (Hroot : page !! "root" = Some None) by reflexivity.
  assert (Htext : page !! "dumbParagraph" = None) by reflexivity.
  split; [exact Hroot |]. split; [exact Htext |].
  exact (script_without_paragraph page Hroot Htext).
Defined.

(** ** The static text on a page *)

(** X16. The static text reacts to nothing: whatever is clicked in its
    container, the component and the whole page stay as they are. *)
Theorem static_text_inert (d : document) (id : string)
  (ev : SyntheticEvent) (label : string) :
  d !! id = Some (Some mounted_text) →
  click ev label mounted_text = mounted_text ∧ click_in id ev label d = d.
Proof.
  intros Hid. split; [reflexivity |].
  unfold click_in. rewrite Hid. apply insert_id, Hid.
Qed.

Lemma static_text_inert_witness :
  let page := exec index_js index_html in
  page !! "dumbParagraph" = Some (Some mounted_text) ∧
  click_in "dumbParagraph" a_click "Reset" page = page.
Proof.
  intros page.
  assert (Hid : page !! "dumbParagraph" = Some (Some mounted_text))
    by reflexivity.
  split; [exact Hid |].
  exact (proj2 (static_text_inert page "dumbParagraph" a_click "Reset" Hid)).
Defined.
